(** * Mineploy frontend: shallow embedding of the server-control client

    Embeds the TypeScript client of Mineploy:
    - [types/server.ts], [types/auth.ts], [types/files.ts]: the data model;
    - [hooks/use-servers.ts]: the query keys, the optimistic
      start/stop/restart mutations and the delete and update mutations over
      the react-query cache;
    - the power buttons of [ServerTable], [ServerDetailPage] and
      [ServerCard];
    - [validateForm]/[handleSubmit] and the memory field of
      [CreateServerDialog];
    - [hooks/use-websocket.ts]: the streaming connection hook;
    - [lib/api-client.ts]: the 401 refresh-and-retry response interceptor;
    - [stores/auth.store.ts]: the authentication store. *)

From Stdlib Require Import ZArith QArith Qround Lia Lqa Ascii String.
From stdpp Require Import base gmap sets list strings pretty.

Open Scope string_scope.
Open Scope Z_scope.

(** ** Data model ([types/server.ts]) *)
Module Types.

Inductive ServerType :=
  | VANILLA | PAPER | SPIGOT | FABRIC | FORGE | NEOFORGE | PURPUR.

(** [ServerStatus]; the detail page's [statusConfig] also keys
    ["downloading"] and ["initializing"]. *)
Inductive ServerStatus :=
  | STOPPED | STARTING | RUNNING | STOPPING | ERROR
  | DOWNLOADING | INITIALIZING.

#[global] Instance ServerStatus_eq_dec : EqDecision ServerStatus.
Proof. solve_decision. Defined.

Record Server := mkServer {
  id : Z;
  name : string;
  description : option string;
  server_type : ServerType;
  version : string;
  port : Z;
  rcon_port : Z;
  memory_mb : Z;
  container_id : option string;
  container_name : string;
  status : ServerStatus;
  is_active : bool;
  created_at : string;
  updated_at : string;
  last_started_at : option string;
  last_stopped_at : option string
}.

(** [{ ...old, status: st }] *)
Definition with_status (st : ServerStatus) (old : Server) : Server :=
  {| id := id old; name := name old; description := description old;
     server_type := server_type old; version := version old; port := port old;
     rcon_port := rcon_port old; memory_mb := memory_mb old;
     container_id := container_id old; container_name := container_name old;
     status := st; is_active := is_active old; created_at := created_at old;
     updated_at := updated_at old; last_started_at := last_started_at old;
     last_stopped_at := last_stopped_at old |}.

End Types.
Import Types.

(** ** Server actions ([hooks/use-servers.ts], [useServerActions])

    The react-query cache is modelled by the entries the power mutations
    touch: the detail entries [serverKeys.detail(id)] (a map from id to the
    cached record), the set of invalidated detail keys, the invalidation flag
    of [serverKeys.lists()], the toasts shown, and the backend requests
    issued by [mutationFn]. *)
Module ServerActions.

Inductive PowerAction := StartAction | StopAction | RestartAction.

Inductive Toast :=
  | ToastLoading (key : string * Z) (msg : string)
  | ToastSuccess (key : string * Z) (msg : string)
  | ToastError (key : string * Z) (msg : string).

Record Client := mkClient {
  details : gmap Z Server;
  invalidated : gset Z;
  lists_invalidated : bool;
  toasts : list Toast;
  requests : list (PowerAction * Z)
}.

(** The result of [serverService.startServer(id)] and its siblings: the
    settled record, or a rejection carrying [error.response?.data?.detail]. *)
Inductive Outcome :=
  | Resolved (data : Server)
  | Rejected (detail : option string).

(** [queryClient.setQueryData(serverKeys.detail(k), updater)]: an updater
    returning [undefined] leaves the entry untouched; otherwise the value is
    written as a successful fetch, which clears the query's invalidation. *)
Definition setQueryData_detail (k : Z) (f : option Server -> option Server)
    (c : Client) : Client :=
  match f (details c !! k) with
  | Some v => mkClient (<[k := v]> (details c)) (invalidated c ∖ {[k]})
                (lists_invalidated c) (toasts c) (requests c)
  | None => c
  end.

(** [error.response?.data?.detail || fallback]: an empty detail is falsy. *)
Definition detail_or (e : option string) (fallback : string) : string :=
  match e with
  | Some s => if bool_decide (s = "") then fallback else s
  | None => fallback
  end.


(** [queryClient.invalidateQueries({queryKey: serverKeys.detail(k)})] *)
Definition invalidate_detail (k : Z) (c : Client) : Client :=
  mkClient (details c) ({[k]} ∪ invalidated c) (lists_invalidated c)
    (toasts c) (requests c).

(** [queryClient.invalidateQueries({queryKey: serverKeys.lists()})] *)
Definition invalidate_lists (c : Client) : Client :=
  mkClient (details c) (invalidated c) true (toasts c) (requests c).

Definition toast (t : Toast) (c : Client) : Client :=
  mkClient (details c) (invalidated c) (lists_invalidated c)
    (toasts c ++ [t]) (requests c).

(** One call of [mutationFn] ([serverService.startServer(k)] and its
    siblings).  The HTTP request behind it may be sent a second time by the
    API client after a token refresh (see [ApiClient]). *)
Definition issue (a : PowerAction) (k : Z) (c : Client) : Client :=
  mkClient (details c) (invalidated c) (lists_invalidated c)
    (toasts c) (requests c ++ [(a, k)]).

(** The parameters that distinguish [startServer], [stopServer] and
    [restartServer]; their callbacks have the same shape. *)
Record PowerMutation := mkPowerMutation {
  action : PowerAction;
  transitional : ServerStatus;
  key_prefix : string;
  loading_msg : string;
  success_msg : string;
  failure_msg : string
}.

Definition startServer : PowerMutation :=
  mkPowerMutation StartAction STARTING "start-" "Starting server..."
    "Server started successfully" "Failed to start server".

Definition stopServer : PowerMutation :=
  mkPowerMutation StopAction STOPPING "stop-" "Stopping server..."
    "Server stopped successfully" "Failed to stop server".

Definition restartServer : PowerMutation :=
  mkPowerMutation RestartAction STARTING "restart-" "Restarting server..."
    "Server restarted successfully" "Failed to restart server".

(** The toast id [`${prefix}${id}`], kept as the pair of its parts. *)
Definition toast_key (m : PowerMutation) (k : Z) : string * Z :=
  (key_prefix m, k).

(** [onMutate]: cancel refetches (no cache effect), write the transitional
    status when a record is cached, show the loading toast. *)
Definition onMutate (m : PowerMutation) (k : Z) (c : Client) : Client :=
  let c1 := setQueryData_detail k
              (fun old => match old with
                          | None => None
                          | Some o => Some (with_status (transitional m) o)
                          end) c in
  toast (ToastLoading (toast_key m k) (loading_msg m)) c1.

(** [onSuccess]: the returned record replaces the detail entry of [data.id]. *)
Definition onSuccess (m : PowerMutation) (data : Server) (c : Client) : Client :=
  let c1 := setQueryData_detail (id data) (fun _ => Some data) c in
  let c2 := invalidate_lists c1 in
  toast (ToastSuccess (toast_key m (id data)) (success_msg m)) c2.

(** [onError] ("Revert optimistic update"): invalidate detail and lists. *)
Definition onError (m : PowerMutation) (err : option string) (k : Z)
    (c : Client) : Client :=
  let c1 := invalidate_detail k c in
  let c2 := invalidate_lists c1 in
  toast (ToastError (toast_key m k) (detail_or err (failure_msg m))) c2.

(** [mutation.mutate(k)]: [onMutate] runs to completion before
    [mutationFn] is called; mutations are not retried (react-query's default
    [retry: 0] for mutations).  Returns the state observed while the call is
    in flight and the settled state. *)
Definition mutate_phases (m : PowerMutation) (backend : Z -> Outcome) (k : Z)
    (c : Client) : Client * Client :=
  let c1 := issue (action m) k (onMutate m k c) in
  (c1, match backend k with
       | Resolved d => onSuccess m d c1
       | Rejected e => onError m e k c1
       end).

Definition mutate (m : PowerMutation) (backend : Z -> Outcome) (k : Z)
    (c : Client) : Client :=
  snd (mutate_phases m backend k c).

(** Refetch of an invalidated detail entry from the server: the fetched
    record replaces the entry; a failed fetch keeps the old data. *)
Definition refetch_detail (fetch : Z -> option Server) (k : Z) (c : Client)
    : Client :=
  if decide (k ∈ invalidated c) then
    match fetch k with
    | Some s => mkClient (<[k := s]> (details c)) (invalidated c ∖ {[k]})
                  (lists_invalidated c) (toasts c) (requests c)
    | None => c
    end
  else c.

End ServerActions.

(** ** Power buttons ([ServerTable] in [create-server-dialog.tsx],
    [ServerDetailPage]) *)
Module PowerButtons.
Import ServerActions.

Inductive View := ServerTableView | ServerDetailView.

(** [isTransitioning]: the table only looks at starting/stopping, the
    detail page also at downloading/initializing. *)
Definition isTransitioning (v : View) (s : ServerStatus) : bool :=
  match v with
  | ServerTableView => bool_decide (s = STARTING) || bool_decide (s = STOPPING)
  | ServerDetailView =>
      bool_decide (s = DOWNLOADING) || bool_decide (s = INITIALIZING)
      || bool_decide (s = STARTING) || bool_decide (s = STOPPING)
  end.

(** The buttons rendered by the ternary
    [status === "stopped" && !isTransitioning ? <Start/> :
     status === "running" && !isTransitioning ? <Restart/><Stop/> :
     <disabled spinner/>]. *)
Definition power_buttons (v : View) (s : ServerStatus) : list PowerAction :=
  if bool_decide (s = STOPPED) && negb (isTransitioning v s) then [StartAction]
  else if bool_decide (s = RUNNING) && negb (isTransitioning v s)
  then [RestartAction; StopAction]
  else [].

Definition mutation_of (a : PowerAction) : PowerMutation :=
  match a with
  | StartAction => startServer
  | StopAction => stopServer
  | RestartAction => restartServer
  end.

#[global] Instance PowerAction_eq_dec : EqDecision PowerAction.
Proof. solve_decision. Defined.

(** A click on the button of action [a] for the displayed record [srv]:
    only a rendered button that is not disabled ([disabled={m.isPending}])
    dispatches [m.mutate(server.id)]. *)
Definition click (v : View) (pending : PowerAction -> bool)
    (backend : Z -> Outcome) (a : PowerAction) (srv : Server) (c : Client)
    : Client :=
  if decide (a ∈ power_buttons v (status srv)) then
    if pending a then c else mutate (mutation_of a) backend (id srv) c
  else c.

End PowerButtons.

(** ** Create dialog validation ([CreateServerDialog.validateForm],
    [handleSubmit]) *)
Module CreateForm.

(** A JavaScript number as produced by [parseInt]. *)
Inductive Num := Finite (z : Z) | NaN.

(** White space removed by [String.prototype.trim] (ASCII part). *)
Definition is_ws (c : ascii) : bool :=
  let n := nat_of_ascii c in
  (n =? 32)%nat || ((9 <=? n)%nat && (n <=? 13)%nat).

Fixpoint drop_ws (l : list ascii) : list ascii :=
  match l with
  | [] => []
  | c :: r => if is_ws c then drop_ws r else l
  end.

Definition trim (s : string) : string :=
  string_of_list_ascii
    (rev (drop_ws (rev (drop_ws (list_ascii_of_string s))))).

Definition digit_value (base : Z) (c : ascii) : option Z :=
  let n := Z.of_nat (nat_of_ascii c) in
  let d := if (48 <=? n) && (n <=? 57) then Some (n - 48)
           else if (97 <=? n) && (n <=? 122) then Some (n - 87)
           else if (65 <=? n) && (n <=? 90) then Some (n - 55)
           else None in
  match d with
  | Some v => if v <? base then Some v else None
  | None => None
  end.

(** The longest prefix of digits; [None] when there is none. *)
Fixpoint take_digits (base : Z) (l : list ascii) (acc : option Z) : option Z :=
  match l with
  | [] => acc
  | c :: r =>
      match digit_value base c with
      | Some d => take_digits base r (Some (default 0 acc * base + d))
      | None => acc
      end
  end.

(** [parseInt(s)] with no radix: leading white space, a sign, a ["0x"]
    prefix selecting base 16, then the longest digit prefix. *)
Definition parseInt (s : string) : Num :=
  let l := drop_ws (list_ascii_of_string s) in
  let '(sign, l1) :=
    match l with
    | "-"%char :: r => (-1, r)
    | "+"%char :: r => (1, r)
    | _ => (1, l)
    end in
  let r :=
    match l1 with
    | "0"%char :: "x"%char :: r => take_digits 16 r None
    | "0"%char :: "X"%char :: r => take_digits 16 r None
    | _ => take_digits 10 l1 None
    end in
  match r with
  | Some z => Finite (sign * z)
  | None => NaN
  end.

(** [n < lo || n > hi] on a JS number: every comparison with NaN is false. *)
Definition out_of_range (lo hi : Z) (n : Num) : bool :=
  match n with
  | Finite z => (z <? lo) || (hi <? z)
  | NaN => false
  end.

Record FormData := mkFormData {
  f_name : string;
  f_description : string;
  f_server_type : ServerType;
  f_version : string;
  f_memory_mb : Z;
  f_port : string;
  f_rcon_port : string
}.

(** [validateForm]: the [newErrors] record as a list of (field, message);
    [String.length] counts characters. *)
Definition validateForm (f : FormData) : list (string * string) :=
  (if bool_decide (trim (f_name f) = "") then
     [("name", "Server name is required")]
   else if (100 <? Z.of_nat (String.length (f_name f))) then
     [("name", "Server name must be less than 100 characters")]
   else [])
  ++ (if bool_decide (trim (f_version f) = "") then
        [("version", "Version is required")]
      else if (20 <? Z.of_nat (String.length (f_version f))) then
        [("version", "Version must be less than 20 characters")]
      else [])
  ++ (if bool_decide (f_port f <> "")
         && out_of_range 1024 65535 (parseInt (f_port f)) then
        [("port", "Port must be between 1024 and 65535")]
      else [])
  ++ (if bool_decide (f_rcon_port f <> "")
         && out_of_range 1024 65535 (parseInt (f_rcon_port f)) then
        [("rcon_port", "RCON port must be between 1024 and 65535")]
      else []).

Record CreatePayload := mkCreatePayload {
  p_name : string;
  p_description : option string;
  p_server_type : ServerType;
  p_version : string;
  p_memory_mb : Z;
  p_port : option Num;
  p_rcon_port : option Num
}.

Definition optional_port (s : string) : option Num :=
  if bool_decide (s = "") then None else Some (parseInt s).

(** [handleSubmit]: [Some payload] is the [createServer.mutate(payload)]
    request; [None] means the submission stopped at validation. *)
Definition handleSubmit (f : FormData) : option CreatePayload :=
  match validateForm f with
  | [] =>
      Some (mkCreatePayload (trim (f_name f))
              (if bool_decide (trim (f_description f) = "") then None
               else Some (trim (f_description f)))
              (f_server_type f) (trim (f_version f)) (f_memory_mb f)
              (optional_port (f_port f)) (optional_port (f_rcon_port f)))
  | _ :: _ => None
  end.

End CreateForm.

(** ** Streaming protocol types ([types/files.ts], [types/settings.ts]) *)
Module WsTypes.

(** [WebSocketChannel = "default" | "minecraft_logs" | "container_logs"] *)
Inductive WebSocketChannel := ch_default | ch_minecraft_logs | ch_container_logs.

Definition channel_to_string (c : WebSocketChannel) : string :=
  match c with
  | ch_default => "default"
  | ch_minecraft_logs => "minecraft_logs"
  | ch_container_logs => "container_logs"
  end.

(** The string literal type as a decoder: [Some c] exactly for the
    literals of the union. *)
Definition channel_of_string (s : string) : option WebSocketChannel :=
  if bool_decide (s = "default") then Some ch_default
  else if bool_decide (s = "minecraft_logs") then Some ch_minecraft_logs
  else if bool_decide (s = "container_logs") then Some ch_container_logs
  else None.

(** JSON values, for [Record<string, any>]. *)
#[local] Set Warnings "-register-all".
Inductive JSON :=
  | JNull
  | JBool (b : bool)
  | JNumber (z : Z)
  | JString (s : string)
  | JArray (l : list JSON)
  | JObject (l : list (string * JSON)).

Inductive WebSocketMessageType :=
  | T_status_update | T_download_progress | T_logs | T_log_line | T_pong
  | T_error.

Definition type_string (t : WebSocketMessageType) : string :=
  match t with
  | T_status_update => "status_update"
  | T_download_progress => "download_progress"
  | T_logs => "logs"
  | T_log_line => "log_line"
  | T_pong => "pong"
  | T_error => "error"
  end.

(** [WebSocketMessageUnion]: every member extends [WebSocketMessage]
    ([type], [server_id]); [details] is optional ([details?]); numbers are
    kept as integers. *)
Inductive WebSocketMessageUnion :=
  | WebSocketStatusUpdate (server_id : Z) (status : string)
      (details : option (list (string * JSON)))
  | WebSocketDownloadProgress (server_id : Z) (current total percentage : Z)
  | WebSocketLogsMessage (server_id : Z) (logs : string)
  | WebSocketLogLine (server_id : Z) (line channel : string)
  | WebSocketPongMessage (server_id : Z)
  | WebSocketErrorMessage (server_id : Z) (message : string).

Definition msg_type (m : WebSocketMessageUnion) : WebSocketMessageType :=
  match m with
  | WebSocketStatusUpdate _ _ _ => T_status_update
  | WebSocketDownloadProgress _ _ _ _ => T_download_progress
  | WebSocketLogsMessage _ _ => T_logs
  | WebSocketLogLine _ _ _ => T_log_line
  | WebSocketPongMessage _ => T_pong
  | WebSocketErrorMessage _ _ => T_error
  end.

Definition all_message_types : list string :=
  ["status_update"; "download_progress"; "logs"; "log_line"; "pong"; "error"].

End WsTypes.

(** ** The streaming hook ([hooks/use-websocket.ts], [useWebSocket]) *)
Module WsHook.
Import WsTypes.

Inductive ReadyState := CONNECTING | OPEN | CLOSING | CLOSED.

#[global] Instance ReadyState_eq_dec : EqDecision ReadyState.
Proof. solve_decision. Defined.

(** A [WebSocket] object with the [_pingInterval] period attached to it. *)
Record Socket := mkSocket {
  url : string;
  readyState : ReadyState;
  ping_interval : option Z
}.

Record UseWebSocketOptions := mkOptions {
  serverId : Z;
  channel : option WebSocketChannel;
  enabled : option bool
}.

(** The hook's state: [connected], [logs], [logLines], [wsRef.current],
    and the strings passed to [send] on the socket. *)
Record HookState := mkHook {
  connected : bool;
  logs : list string;
  logLines : list string;
  ws : option Socket;
  sent : list string
}.

Definition init_hook : HookState := mkHook false [] [] None [].

(** [process.env.NEXT_PUBLIC_API_URL || "http://localhost:8000/api/v1"] *)
Definition api_url (env : option string) : string :=
  match env with
  | Some s => if bool_decide (s = "") then "http://localhost:8000/api/v1" else s
  | None => "http://localhost:8000/api/v1"
  end.

(** [apiUrl.replace(/^http/, "ws")] *)
Definition replace_http (s : string) : string :=
  match s with
  | String "h" (String "t" (String "t" (String "p" r))) => "ws" +:+ r
  | _ => s
  end.

(** [channel = "default"] in the destructuring of the options. *)
Definition opt_channel (o : UseWebSocketOptions) : WebSocketChannel :=
  default ch_default (channel o).

Definition opt_enabled (o : UseWebSocketOptions) : bool :=
  default true (enabled o).

(** [`${wsUrl}/servers/ws/${serverId}?channel=${channel}`] *)
Definition connect_url (env : option string) (o : UseWebSocketOptions) : string :=
  replace_http (api_url env) +:+ "/servers/ws/" +:+ pretty (serverId o)
  +:+ "?channel=" +:+ channel_to_string (opt_channel o).

Definition ping_period_ms : Z := 30000.

Inductive HookEvent :=
  | Connect
  | Opened
  | Message (m : option WebSocketMessageUnion)
  | PingTick
  | Closed
  | Disconnect
  | SendMessage (s : string)
  | StartStreaming
  | StopStreaming
  | ClearLogs.

Definition set_ws (w : option Socket) (c : bool) (st : HookState) : HookState :=
  mkHook c (logs st) (logLines st) w (sent st).

Definition send (s : string) (st : HookState) : HookState :=
  mkHook (connected st) (logs st) (logLines st) (ws st) (sent st ++ [s]).

(** [ws.onmessage]; [None] is a frame [JSON.parse] rejects (caught). The
    user callbacks have no effect on the hook's state. *)
Definition on_message (st : HookState) (m : option WebSocketMessageUnion)
    : HookState :=
  match m with
  | Some (WebSocketLogsMessage _ l) =>
      mkHook (connected st) (logs st ++ [l]) (logLines st) (ws st) (sent st)
  | Some (WebSocketLogLine _ line _) =>
      mkHook (connected st) (logs st) (logLines st ++ [line]) (ws st) (sent st)
  | _ => st
  end.

(** [sendMessage]: only when [wsRef.current && connected]. *)
Definition sendMessage (s : string) (st : HookState) : HookState :=
  match ws st with
  | Some _ => if connected st then send s st else st
  | None => st
  end.

Definition startStreaming (st : HookState) : HookState :=
  sendMessage "start_streaming" st.

Definition stopStreaming (st : HookState) : HookState :=
  sendMessage "stop_streaming" st.

(** One event of the socket held in [wsRef.current], or one call by the
    user.  The [onopen], [onclose] and interval callbacks of a socket that
    an earlier [disconnect] has already released are not modelled. *)
Definition step (env : option string) (o : UseWebSocketOptions)
    (st : HookState) (ev : HookEvent) : HookState :=
  match ev with
  | Connect =>
      (* [if (!enabled || wsRef.current) return;] *)
      if negb (opt_enabled o) then st
      else match ws st with
           | Some _ => st
           | None => set_ws (Some (mkSocket (connect_url env o) CONNECTING None))
                       (connected st) st
           end
  | Opened =>
      match ws st with
      | Some sk =>
          set_ws (Some (mkSocket (url sk) OPEN (Some ping_period_ms))) true st
      | None => st
      end
  | Message m => on_message st m
  | PingTick =>
      (* the interval callback: [if (ws.readyState === WebSocket.OPEN)] *)
      match ws st with
      | Some sk =>
          match ping_interval sk with
          | Some _ => if bool_decide (readyState sk = OPEN)
                      then send "ping" st else st
          | None => st
          end
      | None => st
      end
  | Closed => set_ws None false st
  | Disconnect =>
      match ws st with
      | Some _ => set_ws None false st
      | None => st
      end
  | SendMessage s => sendMessage s st
  | StartStreaming => startStreaming st
  | StopStreaming => stopStreaming st
  | ClearLogs =>
      mkHook (connected st) [] [] (ws st) (sent st)
  end.

Definition run (env : option string) (o : UseWebSocketOptions)
    (st : HookState) (evs : list HookEvent) : HookState :=
  foldl (step env o) st evs.

Definition log_line_payloads (ms : list (option WebSocketMessageUnion))
    : list string :=
  omap (fun m => match m with
                 | Some (WebSocketLogLine _ line _) => Some line
                 | _ => None
                 end) ms.

End WsHook.

(** ** The API client's response interceptor ([lib/api-client.ts])

    Browser environment ([typeof window !== "undefined"]).  [localStorage]
    holds the tokens; [getItem] answers [None] for a missing key, and an
    empty string is falsy in the [if (token ...)] tests. *)
Module ApiClient.

Record Storage := mkStorage {
  access_token : option string;
  refresh_token : option string;
  user : option string;
  location : option string    (* [window.location.href] after a redirect *)
}.

(** [InternalAxiosRequestConfig & { _retry?: boolean }], reduced to the
    parts the interceptors read or write. *)
Record Config := mkConfig {
  cfg_url : string;
  retry_flag : bool;
  authorization : option string
}.

Inductive Error :=
  | HttpError (status : option Z)   (* [AxiosError]; [None]: no response *)
  | RefreshFailed                  (* the rejection of [axios.post(.../auth/refresh)] *)
  | OutOfFuel.

Inductive Result := Ok (status : Z) | Err (e : Error).

Definition truthy (o : option string) : option string :=
  match o with
  | Some s => if bool_decide (s = "") then None else Some s
  | None => None
  end.

(** The request interceptor: [Authorization: Bearer <token>] when a token
    is stored. *)
Definition request_interceptor (st : Storage) (cfg : Config) : Config :=
  match truthy (access_token st) with
  | Some t => mkConfig (cfg_url cfg) (retry_flag cfg) (Some ("Bearer " +:+ t))
  | None => cfg
  end.

Section Interceptor.

(** The backend: the HTTP status answered to a request ([None]: network
    error), and the [/auth/refresh] endpoint ([None]: the post rejects). *)
Variable backend : Config -> option Z.
Variable refresh_endpoint : string -> option (string * string).

(** [apiClient(config)]: request interceptor, send, response interceptor.
    The result, the final storage, and the configs sent, in order.  The
    retry [return apiClient(originalRequest)] is the recursive call; [fuel]
    bounds the recursion depth. *)
Fixpoint api_request (fuel : nat) (cfg : Config) (st : Storage)
    : Result * Storage * list Config :=
  match fuel with
  | O => (Err OutOfFuel, st, [])
  | S n =>
      let cfg1 := request_interceptor st cfg in
      let resp := backend cfg1 in
      match resp with
      | Some code =>
          if (200 <=? code) && (code <? 300) then (Ok code, st, [cfg1])
          else if (code =? 401) && negb (retry_flag cfg1) then
            (* [originalRequest._retry = true] *)
            match truthy (refresh_token st) with
            | Some rt =>
                match refresh_endpoint rt with
                | Some (new_access, new_refresh) =>
                    let st' := mkStorage (Some new_access) (Some new_refresh) (user st)
                                 (location st) in
                    let cfg2 := mkConfig (cfg_url cfg1) true
                                  (Some ("Bearer " +:+ new_access)) in
                    let '(r, st'', sent) := api_request n cfg2 st' in
                    (r, st'', cfg1 :: sent)
                | None =>
                    (Err RefreshFailed,
                     mkStorage None None None (Some "/login"), [cfg1])
                end
            | None => (Err (HttpError resp), st, [cfg1])
            end
          else (Err (HttpError resp), st, [cfg1])
      | None => (Err (HttpError resp), st, [cfg1])
      end
  end.

End Interceptor.

End ApiClient.

(** ** Authentication store ([stores/auth.store.ts], [useAuthStore]) *)
Module AuthStore.

Inductive UserRole := ADMIN | MODERATOR | VIEWER.

Record User := mkUser {
  user_id : Z;
  username : string;
  email : string;
  role : UserRole;
  user_is_active : bool;
  user_created_at : string;
  user_updated_at : string
}.

Record TokenResponse := mkTokenResponse {
  tr_access_token : string;
  tr_refresh_token : string;
  tr_token_type : string;
  tr_user : User
}.

Record AuthState := mkAuthState {
  user : option User;
  accessToken : option string;
  refreshToken : option string;
  isAuthenticated : bool
}.

(** The store together with the [localStorage] token entries it writes. *)
Record World := mkWorld {
  state : AuthState;
  ls_access_token : option string;
  ls_refresh_token : option string
}.

Definition initial_state : AuthState := mkAuthState None None None false.

Definition login (data : TokenResponse) (w : World) : World :=
  mkWorld (mkAuthState (Some (tr_user data)) (Some (tr_access_token data))
             (Some (tr_refresh_token data)) true)
    (Some (tr_access_token data)) (Some (tr_refresh_token data)).

Definition logout (w : World) : World :=
  mkWorld (mkAuthState None None None false) None None.

(** [set({ user })] merges: the other fields are kept. *)
Definition updateUser (u : User) (w : World) : World :=
  let s := state w in
  mkWorld (mkAuthState (Some u) (accessToken s) (refreshToken s)
             (isAuthenticated s))
    (ls_access_token w) (ls_refresh_token w).

Definition auth_invariant (s : AuthState) : Prop :=
  isAuthenticated s = true <-> accessToken s <> None.

(** Rehydration by [persist] in the revision whose [partialize] keeps only
    [user] and [isAuthenticated]: the persisted fields are merged into the
    initial state. *)
Definition rehydrate_partial (persisted : option User * bool) : AuthState :=
  mkAuthState (fst persisted) (accessToken initial_state)
    (refreshToken initial_state) (snd persisted).

End AuthStore.

(** ** Query keys ([serverKeys]) and react-query's partial key matching *)
Module ServerKeys.
Import WsTypes.

(** An element of a query key: a string, a number, or the optional
    [filters] record of [serverKeys.list(filters)]. *)
Inductive KeyPart :=
  | KStr (s : string)
  | KNum (z : Z)
  | KFilters (filters : option (list (string * JSON))).

Definition all : list KeyPart := [KStr "servers"].
Definition lists : list KeyPart := all ++ [KStr "list"].
Definition list_key (filters : option (list (string * JSON))) : list KeyPart :=
  lists ++ [KFilters filters].
Definition details : list KeyPart := all ++ [KStr "detail"].
Definition detail (id : Z) : list KeyPart := details ++ [KNum id].
Definition stats (id : Z) : list KeyPart := all ++ [KStr "stats"; KNum id].

(** The filter keys the hooks pass to [cancelQueries],
    [invalidateQueries] and [removeQueries] ([serverKeys.lists()] and
    [serverKeys.detail(id)]) hold strings and numbers only. *)
Inductive FilterPart := FStr (s : string) | FNum (z : Z).

Definition filter_part (b : FilterPart) : KeyPart :=
  match b with FStr s => KStr s | FNum z => KNum z end.

Definition lists_filter : list FilterPart := [FStr "servers"; FStr "list"].
Definition detail_filter (id : Z) : list FilterPart :=
  [FStr "servers"; FStr "detail"; FNum id].

(** [partialMatchKey(a, b)] on a string or number [b]: [a === b]. *)
Definition part_match (a : KeyPart) (b : FilterPart) : bool :=
  match a, b with
  | KStr x, FStr y => bool_decide (x = y)
  | KNum x, FNum y => bool_decide (x = y)
  | _, _ => false
  end.

(** [partialMatchKey(queryKey, filterKey)] on arrays: every index of the
    filter key matches the query key at the same index; past the end of the
    query key the element is [undefined], which matches nothing. *)
Fixpoint partialMatchKey (q : list KeyPart) (f : list FilterPart) : bool :=
  match f, q with
  | [], _ => true
  | b :: f', a :: q' => part_match a b && partialMatchKey q' f'
  | _ :: _, [] => false
  end.

End ServerKeys.

(** ** The delete and update mutations of [useServerActions]

    Same cache model as the power mutations; the backend request of these
    mutations is not logged in [requests], which records power actions. *)
Module ServerCrud.
Import ServerActions.

(** The settlement of [serverService.deleteServer(id)], which resolves
    with no data. *)
Inductive VoidOutcome := Deleted | DeleteRejected (detail : option string).

(** [queryClient.removeQueries({queryKey: serverKeys.detail(k)})]: the
    query and with it its stale mark leave the cache. *)
Definition remove_detail (k : Z) (c : Client) : Client :=
  mkClient (delete k (details c)) (invalidated c ∖ {[k]})
    (lists_invalidated c) (toasts c) (requests c).

Definition delete_key (k : Z) : string * Z := ("delete-", k).

Definition deleteServer_onMutate (k : Z) (c : Client) : Client :=
  toast (ToastLoading (delete_key k) "Deleting server...") c.

Definition deleteServer_onSuccess (k : Z) (c : Client) : Client :=
  let c1 := invalidate_lists c in
  let c2 := remove_detail k c1 in
  toast (ToastSuccess (delete_key k) "Server deleted successfully") c2.

Definition deleteServer_onError (e : option string) (k : Z) (c : Client)
    : Client :=
  toast (ToastError (delete_key k) (detail_or e "Failed to delete server")) c.

(** [deleteServer.mutate(k)]: the state while the call is in flight and
    the settled state. *)
Definition deleteServer_phases (backend : Z -> VoidOutcome) (k : Z)
    (c : Client) : Client * Client :=
  let c1 := deleteServer_onMutate k c in
  (c1, match backend k with
       | Deleted => deleteServer_onSuccess k c1
       | DeleteRejected e => deleteServer_onError e k c1
       end).

(** [UpdateServerRequest] ([types/server.ts]). *)
Record UpdateServerRequest := mkUpdateServerRequest {
  u_name : option string;
  u_description : option string;
  u_memory_mb : option Z
}.

Definition update_key (k : Z) : string * Z := ("update-", k).

Definition updateServer_onMutate (k : Z) (c : Client) : Client :=
  toast (ToastLoading (update_key k) "Updating server...") c.

Definition updateServer_onSuccess (data : Server) (c : Client) : Client :=
  let c1 := setQueryData_detail (id data) (fun _ => Some data) c in
  let c2 := invalidate_lists c1 in
  toast (ToastSuccess (update_key (id data)) "Server updated successfully") c2.

Definition updateServer_onError (e : option string) (k : Z) (c : Client)
    : Client :=
  toast (ToastError (update_key k) (detail_or e "Failed to update server")) c.

(** [updateServer.mutate({id: k, data})]. *)
Definition updateServer_phases
    (backend : Z -> UpdateServerRequest -> Outcome) (k : Z)
    (data : UpdateServerRequest) (c : Client) : Client * Client :=
  let c1 := updateServer_onMutate k c in
  (c1, match backend k data with
       | Resolved d => updateServer_onSuccess d c1
       | Rejected e => updateServer_onError e k c1
       end).

End ServerCrud.

(** ** The power buttons of [ServerCard] *)
Module ServerCard.
Import ServerActions PowerButtons.

(** The card's [isTransitioning] also counts the card's own pending
    start, stop and restart mutations. *)
Definition card_isTransitioning (s : ServerStatus)
    (pending : PowerAction -> bool) : bool :=
  bool_decide (s = DOWNLOADING) || bool_decide (s = INITIALIZING)
  || bool_decide (s = STARTING) || bool_decide (s = STOPPING)
  || pending StartAction || pending StopAction || pending RestartAction.

(** The footer ternary; the rendered buttons carry
    [disabled={isTransitioning}], which is false wherever they render. *)
Definition card_buttons (s : ServerStatus) (pending : PowerAction -> bool)
    : list PowerAction :=
  if bool_decide (s = STOPPED) && negb (card_isTransitioning s pending)
  then [StartAction]
  else if bool_decide (s = RUNNING) && negb (card_isTransitioning s pending)
  then [RestartAction; StopAction]
  else [].

Definition card_click (pending : PowerAction -> bool)
    (backend : Z -> Outcome) (a : PowerAction) (srv : Server) (c : Client)
    : Client :=
  if decide (a ∈ card_buttons (status srv) pending)
  then mutate (mutation_of a) backend (id srv) c
  else c.

End ServerCard.

(** ** The memory input of [CreateServerDialog] *)
Module MemoryInput.

Inductive MemoryUnit := MB | GB.

(** A JavaScript number as [parseFloat] yields it; finite values as
    rationals. *)
Inductive JsNum := JFinite (q : Q) | JNaN | JInfinity | JNegInfinity.

(** [Math.round]: the nearest integer, halves rounded up. *)
Definition js_round (q : Q) : Z := Qfloor (q + (1 # 2)).

(** The [onChange] handler of the memory field, [value] being
    [parseFloat(e.target.value)]. *)
Definition memory_onChange (u : MemoryUnit) (value : JsNum) (memory_mb : Q)
    : Q :=
  match value with
  | JNaN => memory_mb
  | JFinite v =>
      let mb := match u with
                | MB => v
                | GB => inject_Z (js_round (v * inject_Z 1024))
                end in
      if Qle_bool 512 mb && Qle_bool mb 131072 then mb else memory_mb
  | JInfinity | JNegInfinity =>
      (* [mb] is infinite too: one of the two bounds fails *)
      memory_mb
  end.

Record MemoryState := mkMemoryState {
  memoryUnit : MemoryUnit;
  memory_mb : Q
}.

(** [useState({... memory_mb: 2048 ...})], [useState("GB")], and
    [handleReset]. *)
Definition initial_memory : MemoryState := mkMemoryState GB 2048.

Inductive MemoryEvent :=
  | Edit (value : JsNum)
  | SelectUnit (u : MemoryUnit)
  | ResetForm.

Definition memory_step (st : MemoryState) (e : MemoryEvent) : MemoryState :=
  match e with
  | Edit v => mkMemoryState (memoryUnit st)
                (memory_onChange (memoryUnit st) v (memory_mb st))
  | SelectUnit u => mkMemoryState u (memory_mb st)
  | ResetForm => initial_memory
  end.

Definition memory_run (st : MemoryState) (evs : list MemoryEvent)
    : MemoryState :=
  foldl memory_step st evs.

End MemoryInput.

(** * Properties *)

(** ** Optimistic power mutations *)
Module ServerActionsFacts.
Import ServerActions.

Definition sample_server : Server :=
  mkServer 1 "survival" None PAPER "1.20.4" 25565 25575 2048 (Some "3f2a")
    "mineploy-1" STOPPED true "2025-01-01" "2025-01-01" None None.

Definition sample_client : Client :=
  mkClient {[1 := sample_server]} ∅ false [] [].

Lemma with_status_status (st : ServerStatus) (o : Server) :
  status (with_status st o) = st.
Proof. reflexivity. Qed.

Lemma with_status_back (o : Server) (st : ServerStatus) :
  with_status (status o) (with_status st o) = o.
Proof. destruct o; reflexivity. Qed.

Lemma onMutate_details (m : PowerMutation) (k : Z) (c : Client) :
  details (onMutate m k c) = match details c !! k with
                             | Some o => <[k := with_status (transitional m) o]> (details c)
                             | None => details c
                             end.
Proof.
  unfold onMutate, setQueryData_detail.
  destruct (details c !! k); reflexivity.
Qed.

Lemma onMutate_requests (m : PowerMutation) (k : Z) (c : Client) :
  requests (onMutate m k c) = requests c.
Proof.
  unfold onMutate, setQueryData_detail.
  destruct (details c !! k); reflexivity.
Qed.

(** C1 (as stated) fails: after a failed start the cached record still
    carries the optimistic [starting] status; the prior [stopped] record
    is not restored. *)
Lemma start_failure_keeps_optimistic_status :
  details (mutate startServer (fun _ => Rejected None) 1 sample_client) !! 1
    = Some (with_status STARTING sample_server) /\
  details (mutate startServer (fun _ => Rejected None) 1 sample_client) !! 1
    <> Some sample_server.
Proof.
  split.
  - reflexivity.
  - vm_compute. intros H. inversion H.
Qed.

(** C1 (amended). For the start, stop and restart mutations on id [k]:
    while the backend call is in flight the cached detail record of [k], if
    any, carries the transitional status ([starting] for start, [stopping]
    for stop) with every other field unchanged, other entries are untouched,
    and [mutationFn] is called exactly once (the mutation is not retried);
    on success the returned record is written at its own id; on failure the
    cached entry is left as the optimistic write made it, is invalidated
    together with the list, an error toast shows the server's non-empty
    detail message or else the fallback message, and a refetch that obtains
    the server's record replaces it. *)
Theorem power_mutation_two_phase (m : PowerMutation) (backend : Z -> Outcome)
    (k : Z) (c : Client) :
  transitional startServer = STARTING /\ transitional stopServer = STOPPING /\
  let '(c1, c2) := mutate_phases m backend k c in
  details c1 !! k = with_status (transitional m) <$> details c !! k /\
  (forall o, details c !! k = Some o ->
     exists o', details c1 !! k = Some o' /\ status o' = transitional m /\
                with_status (status o) o' = o) /\
  (forall j, j <> k -> details c1 !! j = details c !! j) /\
  requests c1 = (requests c ++ [(action m, k)])%list /\
  requests c2 = requests c1 /\
  match backend k with
  | Resolved d => details c2 = <[id d := d]> (details c1)
  | Rejected e =>
      details c2 = details c1 /\ k ∈ invalidated c2 /\
      lists_invalidated c2 = true /\
      last (toasts c2) = Some (ToastError (toast_key m k)
                                 (detail_or e (failure_msg m))) /\
      (forall fetch s, fetch k = Some s ->
         details (refetch_detail fetch k c2) !! k = Some s)
  end.
Proof.
  split; [reflexivity|]. split; [reflexivity|].
  unfold mutate_phases. cbn iota zeta beta.
  set (c1 := issue (action m) k (onMutate m k c)).
  assert (Hd : details c1 = details (onMutate m k c)) by reflexivity.
  split; [|split; [|split; [|split; [|split]]]].
  - rewrite Hd, onMutate_details.
    destruct (details c !! k) eqn:E; simpl.
    + by rewrite lookup_insert_eq.
    + by rewrite E.
  - intros o Ho. exists (with_status (transitional m) o).
    rewrite Hd, onMutate_details, Ho, lookup_insert_eq.
    split; [done|]. split; [done|]. apply with_status_back.
  - intros j Hj. rewrite Hd, onMutate_details.
    destruct (details c !! k); [|done].
    by rewrite lookup_insert_ne by congruence.
  - change (requests c1) with (requests (onMutate m k c) ++ [(action m, k)])%list.
    by rewrite onMutate_requests.
  - destruct (backend k) as [d|e]; reflexivity.
  - destruct (backend k) as [d|e].
    + reflexivity.
    + split; [reflexivity|]. split; [simpl; set_solver|].
      split; [reflexivity|].
      split; [unfold onError, toast; cbn [toasts]; apply last_snoc|].
      intros fetch s Hs. unfold refetch_detail.
      rewrite decide_True by (simpl; set_solver). rewrite Hs. simpl.
      by rewrite lookup_insert_eq.
Qed.

(** Witness of the amended C1 at a failing start of [sample_server]. *)
Lemma power_mutation_two_phase_witness :
  transitional startServer = STARTING /\
  details (refetch_detail (fun _ => Some sample_server) 1
             (mutate startServer (fun _ => Rejected None) 1 sample_client)) !! 1
    = Some sample_server.
Proof.
  pose proof (power_mutation_two_phase startServer (fun _ => Rejected None) 1
                sample_client) as (H1 & _ & H).
  cbn iota zeta beta in H.
  destruct H as (_ & _ & _ & _ & _ & _ & _ & _ & _ & Hr).
  split; [exact H1|].
  apply (Hr (fun _ => Some sample_server) sample_server). reflexivity.
Defined.

End ServerActionsFacts.

(** ** Power-button gating *)
Module PowerButtonsFacts.
Import ServerActions PowerButtons.

(** C2. In both views a start is dispatched only for a [stopped] record
    and stop/restart only for a [running] one; in any other state no power
    button is rendered, and a click on a button that is not rendered (in
    particular start on a [running] record) leaves the client state
    unchanged. *)
Theorem power_buttons_gate :
  (forall v s, StartAction ∈ power_buttons v s -> s = STOPPED) /\
  (forall v s, StopAction ∈ power_buttons v s -> s = RUNNING) /\
  (forall v s, RestartAction ∈ power_buttons v s -> s = RUNNING) /\
  (forall v s, s <> STOPPED -> s <> RUNNING -> power_buttons v s = []) /\
  (forall v pending backend a srv c,
     a ∉ power_buttons v (status srv) -> click v pending backend a srv c = c) /\
  (forall v pending backend srv c,
     status srv = RUNNING -> click v pending backend StartAction srv c = c).
Proof.
  assert (Hoff : forall v pending backend a srv c,
            a ∉ power_buttons v (status srv) ->
            click v pending backend a srv c = c).
  { intros v pending backend a srv c H. unfold click.
    by rewrite decide_False. }
  split; [|split; [|split; [|split; [|split]]]].
  - intros [] [] H; simpl in H; set_solver.
  - intros [] [] H; simpl in H; set_solver.
  - intros [] [] H; simpl in H; set_solver.
  - intros [] [] H1 H2; done.
  - exact Hoff.
  - intros v pending backend srv c H. apply Hoff. rewrite H.
    destruct v; simpl; set_solver.
Qed.

Definition running_server : Server :=
  mkServer 2 "lobby" None VANILLA "1.21" 25566 25576 1024 (Some "9c1d")
    "mineploy-2" RUNNING true "2025-01-01" "2025-01-01" None None.

Definition empty_client : Client := mkClient ∅ ∅ false [] [].

(** Witness: clicking start on a running server in the table view. *)
Lemma power_buttons_gate_witness :
  StartAction ∈ power_buttons ServerTableView STOPPED /\
  click ServerTableView (fun _ => false) (fun _ => Rejected None) StartAction
    running_server empty_client = empty_client.
Proof.
  pose proof power_buttons_gate as (_ & _ & _ & _ & _ & H).
  split.
  - simpl. set_solver.
  - apply H. reflexivity.
Defined.

End PowerButtonsFacts.

(** ** Create-dialog validation *)
Module CreateFormFacts.
Import CreateForm.

Lemma text_check_nil (fld m1 m2 : string) (lim : Z) (s : string) :
  (if bool_decide (trim s = "") then [(fld, m1)]
   else if lim <? Z.of_nat (String.length s) then [(fld, m2)] else []) = []
  <-> trim s <> "" /\ Z.of_nat (String.length s) <= lim.
Proof.
  case_bool_decide as H.
  - split; [done|]. intros [H1 _]. contradiction.
  - destruct (Z.ltb_spec lim (Z.of_nat (String.length s))); split;
      intros; try done; lia.
Qed.

Lemma port_check_nil (fld m : string) (s : string) :
  (if bool_decide (s <> "") && out_of_range 1024 65535 (parseInt s)
   then [(fld, m)] else []) = []
  <-> s = "" \/ (forall z, parseInt s = Finite z -> 1024 <= z <= 65535).
Proof.
  case_bool_decide as H; simpl.
  - destruct (parseInt s) as [z|]; simpl.
    + destruct (Z.ltb_spec z 1024), (Z.ltb_spec 65535 z); simpl;
        split; intros Hc; try done.
      * destruct Hc as [Hc|Hc]; [contradiction|]. specialize (Hc z eq_refl). lia.
      * destruct Hc as [Hc|Hc]; [contradiction|]. specialize (Hc z eq_refl). lia.
      * destruct Hc as [Hc|Hc]; [contradiction|]. specialize (Hc z eq_refl). lia.
      * right. intros z' Hz. inversion Hz. lia.
    + split; [|done]. intros _. right. intros z Hz. discriminate.
  - split; [|done]. intros _. left. destruct (decide (s = "")); [done|].
    contradiction.
Qed.

Definition existing_server : Server :=
  mkServer 1 "survival" None PAPER "1.20.4" 25565 25575 2048 (Some "3f2a")
    "mineploy-1" RUNNING true "2025-01-01" "2025-01-01" None None.

Definition form_with_used_port : FormData :=
  mkFormData "creative" "" PAPER "1.20.4" 2048 "25565" "".

(** C3 (as stated) fails: a game port already used by an existing server
    passes validation and the create request is issued; no [PortConflict]
    check is made before the request. *)
Lemma create_with_used_port_is_requested :
  parseInt (f_port form_with_used_port) = Finite (port existing_server) /\
  validateForm form_with_used_port = [] /\
  is_Some (handleSubmit form_with_used_port).
Proof.
  split; [reflexivity|]. split; [reflexivity|].
  eexists. reflexivity.
Qed.

(** C3 (amended). The dialog issues the create request exactly when the
    name is non-empty after trimming and at most 100 characters long, the
    version is non-empty after trimming and at most 20 characters long, and
    each of the game-port and RCON-port fields is empty or, when [parseInt]
    reads a number from it, that number lies in the fixed range
    [1024, 65535]; otherwise no request is made.  No port-in-use check
    takes place. *)
Theorem handleSubmit_validation (f : FormData) :
  is_Some (handleSubmit f) <->
    trim (f_name f) <> "" /\ Z.of_nat (String.length (f_name f)) <= 100 /\
    trim (f_version f) <> "" /\ Z.of_nat (String.length (f_version f)) <= 20 /\
    (f_port f = "" \/
       forall z, parseInt (f_port f) = Finite z -> 1024 <= z <= 65535) /\
    (f_rcon_port f = "" \/
       forall z, parseInt (f_rcon_port f) = Finite z -> 1024 <= z <= 65535).
Proof.
  assert (Hv : validateForm f = [] <->
    (trim (f_name f) <> "" /\ Z.of_nat (String.length (f_name f)) <= 100) /\
    (trim (f_version f) <> "" /\ Z.of_nat (String.length (f_version f)) <= 20) /\
    (f_port f = "" \/
       forall z, parseInt (f_port f) = Finite z -> 1024 <= z <= 65535) /\
    (f_rcon_port f = "" \/
       forall z, parseInt (f_rcon_port f) = Finite z -> 1024 <= z <= 65535)).
  { unfold validateForm.
    rewrite !app_nil, text_check_nil, text_check_nil, port_check_nil,
      port_check_nil.
    reflexivity. }
  transitivity (validateForm f = []).
  - unfold handleSubmit. destruct (validateForm f); split; intros H; done.
  - rewrite Hv. tauto.
Qed.

(** Witness of the amended C3 at a form whose port is already in use. *)
Lemma handleSubmit_validation_witness :
  is_Some (handleSubmit form_with_used_port) /\
  trim (f_name form_with_used_port) <> "".
Proof.
  assert (H : is_Some (handleSubmit form_with_used_port))
    by (eexists; reflexivity).
  split; [exact H|].
  apply (proj1 (handleSubmit_validation form_with_used_port) H).
Defined.

End CreateFormFacts.

(** ** Streaming protocol types *)
Module WsTypesFacts.
Import WsTypes.

(** C4 (as stated) fails: ["game_logs"] is not a channel of the union;
    the game-log channel is spelled ["minecraft_logs"]. *)
Lemma game_logs_not_a_channel :
  channel_of_string "game_logs" = None /\
  (forall c, channel_to_string c <> "game_logs") /\
  channel_of_string "minecraft_logs" = Some ch_minecraft_logs.
Proof.
  split; [reflexivity|]. split; [|reflexivity].
  intros []; discriminate.
Qed.

(** C4 (amended). The channel values are exactly ["default"],
    ["minecraft_logs"] and ["container_logs"]: a string is a channel iff it
    is one of them, and each channel decodes back to itself. *)
Theorem channel_values_exact :
  (forall s, is_Some (channel_of_string s) <->
             s ∈ ["default"; "minecraft_logs"; "container_logs"]) /\
  (forall c, channel_of_string (channel_to_string c) = Some c).
Proof.
  split.
  - intros s. unfold channel_of_string.
    rewrite !elem_of_cons, elem_of_nil.
    repeat case_bool_decide; subst; unfold is_Some; naive_solver.
  - intros []; reflexivity.
Qed.

Ltac kind_iff :=
  let m := fresh "m" in
  intros m; split;
  [ intros H; destruct m; simpl in H; try discriminate; eauto 10
  | intros (? & H'); repeat destruct H' as (? & H'); subst; reflexivity ].

(** C5. A server-to-client message is tagged by exactly one of six
    distinct kinds, and each kind carries its payload: [status_update]
    [status] and the optional [details], [download_progress] [current],
    [total], [percentage], [log_line] [line] and [channel], [logs] [logs],
    [error] [message], [pong] nothing beyond the [server_id] all carry. *)
Theorem message_kinds_exact :
  NoDup all_message_types /\
  (forall t1 t2, type_string t1 = type_string t2 -> t1 = t2) /\
  (forall m, type_string (msg_type m) ∈ all_message_types) /\
  (forall m, msg_type m = T_status_update <->
     exists sid status details, m = WebSocketStatusUpdate sid status details) /\
  (forall m, msg_type m = T_download_progress <->
     exists sid current total percentage,
       m = WebSocketDownloadProgress sid current total percentage) /\
  (forall m, msg_type m = T_log_line <->
     exists sid line channel, m = WebSocketLogLine sid line channel) /\
  (forall m, msg_type m = T_logs <->
     exists sid logs, m = WebSocketLogsMessage sid logs) /\
  (forall m, msg_type m = T_pong <-> exists sid, m = WebSocketPongMessage sid) /\
  (forall m, msg_type m = T_error <->
     exists sid message, m = WebSocketErrorMessage sid message).
Proof.
  split; [vm_compute; repeat constructor; set_solver|].
  split; [intros [] []; simpl; intros H; done|].
  split; [intros []; simpl; set_solver|].
  repeat (split; [kind_iff|]); kind_iff.
Qed.

(** Witness of C5 at a log line. *)
Lemma message_kinds_exact_witness :
  msg_type (WebSocketLogLine 3 "[Server thread/INFO]: Done" "minecraft_logs")
    = T_log_line /\
  exists sid line channel,
    WebSocketLogLine 3 "[Server thread/INFO]: Done" "minecraft_logs"
    = WebSocketLogLine sid line channel.
Proof.
  pose proof message_kinds_exact as (_ & _ & _ & _ & _ & H & _).
  split; [reflexivity|].
  apply H. reflexivity.
Defined.

End WsTypesFacts.

(** ** The streaming hook *)
Module WsHookFacts.
Import WsTypes WsHook.

Definition sample_options : UseWebSocketOptions := mkOptions 1 None None.

Definition messages_of (evs : list HookEvent)
    : list (option WebSocketMessageUnion) :=
  omap (fun e => match e with Message m => Some m | _ => None end) evs.

Lemma run_cons (env : option string) (o : UseWebSocketOptions)
    (st : HookState) (e : HookEvent) (evs : list HookEvent) :
  run env o st (e :: evs) = run env o (step env o st e) evs.
Proof. reflexivity. Qed.

Lemma step_logLines (env : option string) (o : UseWebSocketOptions)
    (st : HookState) (e : HookEvent) :
  e <> ClearLogs ->
  logLines (step env o st e)
  = (logLines st ++ log_line_payloads (messages_of [e]))%list.
Proof.
  intros He. destruct e as [| |m| | | |s| | |]; try done.
  3: destruct m as [[]|]; simpl; by rewrite ?app_nil_r.
  all: unfold step, startStreaming, stopStreaming, sendMessage, send, set_ws;
    repeat case_match; simpl; by rewrite ?app_nil_r.
Qed.

(** C6. Processing any sequence of messages appends exactly the
    [log_line] payloads, in arrival order, at the tail of [logLines]; the
    same holds for any sequence of hook events without [clearLogs]. *)
Theorem logLines_in_arrival_order :
  (forall env o st (ms : list (option WebSocketMessageUnion)),
     logLines (run env o st (map Message ms))
     = (logLines st ++ log_line_payloads ms)%list) /\
  (forall env o (ms : list (option WebSocketMessageUnion)),
     logLines (run env o init_hook (map Message ms)) = log_line_payloads ms) /\
  (forall env o st (evs : list HookEvent),
     ClearLogs ∉ evs ->
     logLines (run env o st evs)
     = (logLines st ++ log_line_payloads (messages_of evs))%list).
Proof.
  assert (Hev : forall env o st (evs : list HookEvent),
     ClearLogs ∉ evs ->
     logLines (run env o st evs)
     = (logLines st ++ log_line_payloads (messages_of evs))%list).
  { intros env o st evs. revert st.
    induction evs as [|e evs IH]; intros st Hn.
    - simpl. by rewrite app_nil_r.
    - rewrite run_cons, IH by set_solver.
      rewrite step_logLines by set_solver.
      rewrite <- app_assoc. f_equal.
      unfold log_line_payloads, messages_of.
      destruct e; simpl; try done. destruct m as [[]|]; done. }
  assert (Hms : forall env o st (ms : list (option WebSocketMessageUnion)),
     logLines (run env o st (map Message ms))
     = (logLines st ++ log_line_payloads ms)%list).
  { intros env o st ms. rewrite Hev.
    - f_equal. f_equal. unfold messages_of.
      induction ms; simpl; [done|]. by f_equal.
    - rewrite list_elem_of_In, in_map_iff. intros (? & ? & _). discriminate. }
  split; [exact Hms|]. split; [|exact Hev].
  intros env o ms. by rewrite Hms.
Qed.

Definition sample_events : list HookEvent :=
  [Connect; Opened;
   Message (Some (WebSocketLogLine 1 "a" "container_logs"));
   PingTick;
   Message (Some (WebSocketStatusUpdate 1 "running" None));
   Message (Some (WebSocketLogLine 1 "b" "container_logs"))].

(** Witness of C6 on a connection that opens and receives two lines. *)
Lemma logLines_in_arrival_order_witness :
  (ClearLogs ∉ sample_events) /\
  logLines (run None sample_options init_hook sample_events) = ["a"; "b"].
Proof.
  pose proof logLines_in_arrival_order as (_ & _ & H).
  assert (Hn : ClearLogs ∉ sample_events).
  { unfold sample_events. rewrite !not_elem_of_cons.
    repeat split; try discriminate. apply not_elem_of_nil. }
  split; [exact Hn|].
  rewrite (H None sample_options init_hook _ Hn). reflexivity.
Defined.


(** C7 (as stated) fails: the hook's [sendMessage] forwards any string,
    and [startStreaming] sends nothing while the hook is not connected. *)
Lemma upstream_strings_not_only_three :
  sent (run None sample_options init_hook
          [Connect; Opened; SendMessage "hello"]) = ["hello"] /\
  sent (run None sample_options init_hook [StartStreaming]) = [].
Proof. split; reflexivity. Qed.

Definition if_connected (st : HookState) (s : string) : list string :=
  match ws st with
  | Some _ => if connected st then [s] else []
  | None => []
  end.

Lemma step_sent (env : option string) (o : UseWebSocketOptions)
    (st : HookState) (e : HookEvent) :
  exists l, sent (step env o st e) = (sent st ++ l)%list /\
    forall x, x ∈ l -> x = "ping" \/ x = "start_streaming" \/
                       x = "stop_streaming" \/ e = SendMessage x.
Proof.
  destruct e as [| |m| | | |s| | |].
  3: { exists []. destruct m as [[]|]; simpl; rewrite ?app_nil_r;
       (split; [done|set_solver]). }
  all: unfold step, startStreaming, stopStreaming, sendMessage, send, set_ws;
    repeat case_match; simpl;
    first [ exists []; rewrite app_nil_r; split; [done|set_solver]
          | eexists [_]; split; [reflexivity|];
            intros x Hx; rewrite elem_of_cons, elem_of_nil in Hx;
            destruct Hx as [->|[]]; naive_solver ].
Qed.

(** C7 (amended). Upstream the hook sends: ["ping"] from the interval set
    up with a 30000 ms period when the socket opens, and only while the
    socket is [OPEN]; ["start_streaming"] from [startStreaming] and
    ["stop_streaming"] from [stopStreaming], each only when a socket exists
    and the hook is connected (nothing otherwise); and, through the
    exported [sendMessage], any caller-supplied string under the same
    condition.  No other string is ever sent. *)
Theorem upstream_strings :
  (forall env o st sk, ws st = Some sk ->
     ws (step env o st Opened) = Some (mkSocket (url sk) OPEN (Some 30000)) /\
     connected (step env o st Opened) = true) /\
  (forall env o st,
     sent (step env o st PingTick)
     = (sent st ++ match ws st with
                   | Some sk => if bool_decide (readyState sk = OPEN)
                                  && bool_decide (ping_interval sk <> None)
                                then ["ping"] else []
                   | None => []
                   end)%list) /\
  (forall env o st,
     sent (step env o st StartStreaming)
     = (sent st ++ if_connected st "start_streaming")%list) /\
  (forall env o st,
     sent (step env o st StopStreaming)
     = (sent st ++ if_connected st "stop_streaming")%list) /\
  (forall env o st s,
     sent (step env o st (SendMessage s)) = (sent st ++ if_connected st s)%list) /\
  (forall env o st evs s,
     s ∈ sent (run env o st evs) ->
     s ∈ sent st \/ s = "ping" \/ s = "start_streaming" \/
     s = "stop_streaming" \/ SendMessage s ∈ evs).
Proof.
  split; [|split; [|split; [|split; [|split]]]].
  - intros env o st sk H. simpl. rewrite H. done.
  - intros env o st. simpl.
    destruct (ws st) as [sk|]; [|by rewrite app_nil_r].
    destruct (ping_interval sk); simpl.
    + rewrite andb_true_r. case_bool_decide; [done|by rewrite app_nil_r].
    + rewrite andb_false_r. by rewrite app_nil_r.
  - intros env o st. simpl. unfold startStreaming, sendMessage, if_connected.
    repeat case_match; simpl; by rewrite ?app_nil_r.
  - intros env o st. simpl. unfold stopStreaming, sendMessage, if_connected.
    repeat case_match; simpl; by rewrite ?app_nil_r.
  - intros env o st s. simpl. unfold sendMessage, if_connected.
    repeat case_match; simpl; by rewrite ?app_nil_r.
  - intros env o st evs. revert st.
    induction evs as [|e evs IH]; intros st s Hs; [by left|].
    rewrite run_cons in Hs.
    destruct (IH _ _ Hs) as [Hin|Hrest]; [|set_solver].
    destruct (step_sent env o st e) as (l & Hl & Hx).
    rewrite Hl in Hin. apply elem_of_app in Hin as [Hin|Hin]; [by left|].
    destruct (Hx s Hin) as [?|[?|[?|?]]]; subst; set_solver.
Qed.

(** Witness of the amended C7 on a connection that opens. *)
Lemma upstream_strings_witness :
  ws (step None sample_options
        (run None sample_options init_hook [Connect]) Opened)
  = Some (mkSocket (connect_url None sample_options) OPEN (Some 30000)) /\
  "ping" ∈ sent (run None sample_options init_hook [Connect; Opened; PingTick]).
Proof.
  pose proof upstream_strings as (H1 & _ & _ & _ & _ & H6).
  split.
  - apply (H1 None sample_options _
             (mkSocket (connect_url None sample_options) CONNECTING None)).
    reflexivity.
  - vm_compute. left.
Defined.

(** C8. The socket URL is built from the server id and one [channel]
    query parameter, [default] when no channel is given; connecting with
    no socket open opens exactly that URL, and every socket the hook holds
    after any sequence of events has that URL. *)
Theorem connection_scoped_to_id_and_channel :
  (forall env sid en,
     connect_url env (mkOptions sid None en)
     = replace_http (api_url env) +:+ "/servers/ws/" +:+ pretty sid
       +:+ "?channel=default") /\
  (forall env o,
     connect_url env o
     = replace_http (api_url env) +:+ "/servers/ws/" +:+ pretty (serverId o)
       +:+ "?channel=" +:+ channel_to_string (opt_channel o)) /\
  (forall env o st, opt_enabled o = true -> ws st = None ->
     ws (step env o st Connect)
     = Some (mkSocket (connect_url env o) CONNECTING None)) /\
  (forall env o evs sk, ws (run env o init_hook evs) = Some sk ->
     url sk = connect_url env o).
Proof.
  split; [done|]. split; [done|]. split.
  - intros env o st He Hw. simpl. rewrite He, Hw. done.
  - intros env o evs.
    assert (Hinv : forall st, (forall sk, ws st = Some sk -> url sk = connect_url env o) ->
              forall sk, ws (run env o st evs) = Some sk -> url sk = connect_url env o).
    { induction evs as [|e evs IH]; intros st Hst; [exact Hst|].
      rewrite run_cons. apply IH. intros sk Hsk.
      destruct e; simpl in Hsk;
        unfold startStreaming, stopStreaming, sendMessage, send, set_ws,
          on_message in Hsk;
        repeat case_match; simpl in Hsk; simplify_eq;
        first [solve [eauto] | exact (Hst _ eq_refl)]. }
    apply Hinv. done.
Qed.

(** Witness of C8 at server 7 with no channel and the default API URL. *)
Lemma connection_scoped_to_id_and_channel_witness :
  ws (run None (mkOptions 7 None None) init_hook [Connect]) =
    Some (mkSocket "ws://localhost:8000/api/v1/servers/ws/7?channel=default"
            CONNECTING None).
Proof.
  pose proof connection_scoped_to_id_and_channel as (H1 & _ & H3 & _).
  change (run None (mkOptions 7 None None) init_hook [Connect])
    with (step None (mkOptions 7 None None) init_hook Connect).
  rewrite (H3 None (mkOptions 7 None None) init_hook eq_refl eq_refl).
  rewrite (H1 None 7 None). vm_compute. reflexivity.
Defined.

End WsHookFacts.

(** ** The 401 refresh-and-retry interceptor *)
Module ApiClientFacts.
Import ApiClient.

Section Interceptor.

Variable backend : Config -> option Z.
Variable refresh_endpoint : string -> option (string * string).

Abbreviation request := (api_request backend refresh_endpoint).

Lemma request_interceptor_retry (st : Storage) (cfg : Config) :
  retry_flag (request_interceptor st cfg) = retry_flag cfg.
Proof. unfold request_interceptor. by destruct (truthy _). Qed.

(** A request already marked [_retry] is sent once and never refreshed. *)
Lemma api_request_marked (n : nat) (cfg : Config) (st : Storage) :
  retry_flag cfg = true ->
  exists r, request (S n) cfg st = (r, st, [request_interceptor st cfg]) /\
    r <> Err OutOfFuel /\
    (backend (request_interceptor st cfg) = Some 401 ->
     r = Err (HttpError (Some 401))).
Proof.
  intros Hr. simpl. rewrite request_interceptor_retry, Hr.
  destruct (backend (request_interceptor st cfg)) as [code|] eqn:Eb.
  - rewrite andb_false_r.
    destruct ((200 <=? code) && (code <? 300)) eqn:E2.
    + eexists. split; [reflexivity|]. split; [discriminate|].
      intros H. inversion H; subst. discriminate.
    + destruct (code =? 401); eexists; (split; [reflexivity|]);
        (split; [discriminate|]); intros H; by inversion H.
  - eexists. split; [reflexivity|]. split; [discriminate|]. discriminate.
Qed.

Lemma api_request_length_le_1 (n : nat) (cfg : Config) (st : Storage) :
  retry_flag cfg = true -> (length (request n cfg st).2 <= 1)%nat.
Proof.
  intros Hr. destruct n as [|n]; [simpl; lia|].
  destruct (api_request_marked n cfg st Hr) as (r & -> & _). simpl. lia.
Qed.


(** C9. A request answered 401 is retried at most once: at most two
    requests are sent; a second request is only sent after a successful
    token refresh, it carries the [_retry] mark and the new token, and a 401
    on it is returned as the error without another refresh; when the
    refresh itself fails, both stored tokens (and the user) are removed,
    the browser is sent to [/login], and the refresh failure is returned.
    With at least two levels of recursion available the fuel bound is
    never reached. *)
Theorem refresh_retry_at_most_once :
  (forall fuel cfg st, (length (request fuel cfg st).2 <= 2)%nat) /\
  (forall fuel cfg st c1 c2 rest,
     (request fuel cfg st).2 = c1 :: c2 :: rest ->
     rest = [] /\ retry_flag cfg = false /\ backend c1 = Some 401 /\
     retry_flag c2 = true /\
     (exists rt a nrt, truthy (refresh_token st) = Some rt /\
        refresh_endpoint rt = Some (a, nrt) /\
        authorization c2 = Some ("Bearer " +:+ a)) /\
     (backend c2 = Some 401 ->
        (request fuel cfg st).1.1 = Err (HttpError (Some 401)))) /\
  (forall n cfg st rt,
     retry_flag cfg = false ->
     backend (request_interceptor st cfg) = Some 401 ->
     truthy (refresh_token st) = Some rt ->
     refresh_endpoint rt = None ->
     request (S n) cfg st
     = (Err RefreshFailed, mkStorage None None None (Some "/login"),
        [request_interceptor st cfg])) /\
  (forall n cfg st, (request (S (S n)) cfg st).1.1 <> Err OutOfFuel).
Proof.
  split; [|split; [|split]].
  - intros [|n] cfg st; [simpl; lia|]. simpl.
    destruct (backend (request_interceptor st cfg)) as [code|]; [|simpl; lia].
    destruct ((200 <=? code) && (code <? 300)); [simpl; lia|].
    destruct ((code =? 401) && negb (retry_flag (request_interceptor st cfg)));
      [|simpl; lia].
    destruct (truthy (refresh_token st)) as [rt|]; [|simpl; lia].
    destruct (refresh_endpoint rt) as [[a nrt]|]; [|simpl; lia].
    match goal with
    | |- context [api_request backend refresh_endpoint n ?c ?s] =>
        pose proof (api_request_length_le_1 n c s eq_refl) as Hl;
        destruct (api_request backend refresh_endpoint n c s)
          as [[r st''] sent]
    end.
    simpl in *. lia.
  - intros [|n] cfg st c1 c2 rest Hs; [discriminate|]. simpl in Hs |- *.
    destruct (backend (request_interceptor st cfg)) as [code|] eqn:Eb;
      [|discriminate].
    destruct ((200 <=? code) && (code <? 300)); [discriminate|].
    destruct ((code =? 401) && negb (retry_flag (request_interceptor st cfg)))
      eqn:E401; [|discriminate].
    destruct (truthy (refresh_token st)) as [rt|] eqn:Ert; [|discriminate].
    destruct (refresh_endpoint rt) as [[a nrt]|] eqn:Eref; [|discriminate].
    destruct n as [|n]; [discriminate|].
    match goal with
    | |- context [api_request backend refresh_endpoint (S n) ?c ?s] =>
        destruct (api_request_marked n c s eq_refl) as (r & Heq & _ & H401);
        rewrite Heq in Hs |- *
    end.
    simpl in Hs. inversion Hs; subst c1 c2 rest.
    apply andb_true_iff in E401 as [Ec Enr].
    apply Z.eqb_eq in Ec. subst code.
    rewrite request_interceptor_retry in Enr. apply negb_true_iff in Enr.
    split; [done|]. split; [done|]. split; [done|].
    split; [by rewrite request_interceptor_retry|].
    split.
    + exists rt, a, nrt. split; [done|]. split; [done|].
      unfold request_interceptor, truthy. simpl. by case_bool_decide.
    + exact H401.
  - intros n cfg st rt Hr Hb Ht Href. simpl. rewrite Hb.
    rewrite request_interceptor_retry, Hr, Ht, Href. reflexivity.
  - intros n cfg st. remember (S n) as m eqn:Hm. simpl.
    destruct (backend (request_interceptor st cfg)) as [code|]; [|discriminate].
    destruct ((200 <=? code) && (code <? 300)); [discriminate|].
    destruct ((code =? 401) && negb (retry_flag (request_interceptor st cfg)));
      [|discriminate].
    destruct (truthy (refresh_token st)) as [rt|]; [|discriminate].
    destruct (refresh_endpoint rt) as [[a nrt]|]; [|discriminate].
    match goal with
    | |- context [api_request backend refresh_endpoint m ?c ?s] =>
        subst m;
        destruct (api_request_marked n c s eq_refl) as (r & Heq & Hr & _);
        rewrite Heq
    end.
    exact Hr.
Qed.

End Interceptor.


Definition always_401 : Config -> option Z := fun _ => Some 401.
Definition refresh_ok : string -> option (string * string) :=
  fun _ => Some ("a2", "r2").
Definition refresh_rejected : string -> option (string * string) :=
  fun _ => None.
Definition sample_config : Config := mkConfig "/servers" false None.
Definition sample_storage : Storage :=
  mkStorage (Some "a1") (Some "r1") (Some "admin") None.

(** Witness of C9: a rejected refresh clears the tokens; with a working
    refresh the retried request's 401 is returned as is. *)
Lemma refresh_retry_at_most_once_witness :
  api_request always_401 refresh_rejected 2%nat sample_config sample_storage
  = (Err RefreshFailed, mkStorage None None None (Some "/login"),
     [request_interceptor sample_storage sample_config]) /\
  (api_request always_401 refresh_ok 5%nat sample_config sample_storage).1.1
  = Err (HttpError (Some 401)).
Proof.
  pose proof (refresh_retry_at_most_once always_401 refresh_rejected)
    as (_ & _ & H3 & _).
  pose proof (refresh_retry_at_most_once always_401 refresh_ok)
    as (_ & H2 & _).
  split.
  - apply (H3 1%nat sample_config sample_storage "r1"); reflexivity.
  - destruct (H2 5%nat sample_config sample_storage
                (request_interceptor sample_storage sample_config)
                (mkConfig "/servers" true (Some "Bearer a2")) [] eq_refl)
      as (_ & _ & _ & _ & _ & H).
    apply H. reflexivity.
Defined.

End ApiClientFacts.

Module AuthStoreFacts.
Import AuthStore.

(** C10: [isAuthenticated] is true exactly when [accessToken] is set; this
    holds in the initial state, after [login] and [logout] from any world,
    and [updateUser] keeps it. *)
Theorem auth_invariant_preserved :
  auth_invariant initial_state /\
  (forall data w, auth_invariant (state (login data w))) /\
  (forall w, auth_invariant (state (logout w))) /\
  (forall u w, auth_invariant (state w) ->
               auth_invariant (state (updateUser u w))).
Proof.
  unfold auth_invariant; split; [|split; [|split]].
  - cbn; split; [discriminate | intros H; by destruct H].
  - intros data w; cbn; split; [discriminate | done].
  - intros w; cbn; split; [discriminate | intros H; by destruct H].
  - intros u w H; exact H.
Qed.

Definition sample_user : User :=
  mkUser 1 "admin" "admin@example.com" ADMIN true "" "".

Definition sample_world : World :=
  mkWorld (mkAuthState None (Some "tok") None true) (Some "tok") None.

(** Witness of C10: [updateUser] on a logged-in world keeps the invariant. *)
Lemma auth_invariant_preserved_witness :
  auth_invariant (state (updateUser sample_user sample_world)).
Proof.
  destruct auth_invariant_preserved as (_ & _ & _ & H).
  apply H. unfold auth_invariant; cbn. split; [discriminate | done].
Defined.

(** In the revision that persists only [user] and [isAuthenticated],
    rehydrating a logged-in session gives a flag without a token. *)
Lemma rehydrate_partial_breaks_invariant :
  ~ auth_invariant (rehydrate_partial (Some sample_user, true)).
Proof.
  unfold auth_invariant; cbn. intros [H _]. by apply H.
Qed.

End AuthStoreFacts.

(** ** Query-key matching *)
Module ServerKeysFacts.
Import ServerKeys.

(** The filters are the keys [serverKeys.lists()] and
    [serverKeys.detail(k)]; invalidating the lists reaches every
    [serverKeys.list(filters)] query but no detail or stats query, and the
    detail filter of [k] reaches the detail query of [k] only. *)
Theorem server_keys_matching :
  map filter_part lists_filter = lists /\
  (forall k, map filter_part (detail_filter k) = detail k) /\
  partialMatchKey lists lists_filter = true /\
  (forall f, partialMatchKey (list_key f) lists_filter = true) /\
  (forall k, partialMatchKey (detail k) lists_filter = false) /\
  (forall k, partialMatchKey (stats k) lists_filter = false) /\
  (forall j k, partialMatchKey (detail j) (detail_filter k) = true <-> j = k) /\
  (forall f k, partialMatchKey (list_key f) (detail_filter k) = false) /\
  (forall j k, partialMatchKey (stats j) (detail_filter k) = false) /\
  partialMatchKey lists (detail_filter 0) = false.
Proof.
  split; [done|]. split; [done|]. split; [done|].
  split; [done|]. split; [done|]. split; [done|].
  split.
  - intros j k. cbn. rewrite andb_true_r.
    split; [by intros ?%bool_decide_eq_true_1 | intros ->; by apply bool_decide_eq_true_2].
  - split; [done|]. split; done.
Qed.

End ServerKeysFacts.

(** ** Delete and update mutations *)
Module ServerCrudFacts.
Import ServerActions ServerCrud.

(** [deleteServer] makes no optimistic change: while the call is in flight
    only the loading toast is added.  On success the detail entry of [k]
    leaves the cache (other entries untouched) and the lists are
    invalidated; on failure the cache is exactly as before and only the
    error toast is added. *)
Theorem deleteServer_cache_effects (backend : Z -> VoidOutcome) (k : Z)
    (c : Client) :
  let '(c1, c2) := deleteServer_phases backend k c in
  details c1 = details c /\ invalidated c1 = invalidated c /\
  lists_invalidated c1 = lists_invalidated c /\
  match backend k with
  | Deleted =>
      details c2 !! k = None /\
      (forall j, j <> k -> details c2 !! j = details c !! j) /\
      (k ∉ invalidated c2) /\ lists_invalidated c2 = true /\
      toasts c2 = (toasts c ++
        [ToastLoading (delete_key k) "Deleting server...";
         ToastSuccess (delete_key k) "Server deleted successfully"])%list
  | DeleteRejected e =>
      details c2 = details c /\ invalidated c2 = invalidated c /\
      lists_invalidated c2 = lists_invalidated c /\
      toasts c2 = (toasts c ++
        [ToastLoading (delete_key k) "Deleting server...";
         ToastError (delete_key k) (detail_or e "Failed to delete server")])%list
  end.
Proof.
  unfold deleteServer_phases. cbn iota zeta beta.
  split; [done|]. split; [done|]. split; [done|].
  destruct (backend k) as [|e]; cbn.
  - split; [by rewrite lookup_delete_eq|].
    split; [intros j Hj; by rewrite lookup_delete_ne by congruence|].
    split; [set_solver|]. split; [done|].
    by rewrite <- app_assoc.
  - split; [done|]. split; [done|]. split; [done|].
    by rewrite <- app_assoc.
Qed.

Definition cached_client : Client :=
  mkClient {[1 := ServerActionsFacts.sample_server]} ∅ false [] [].

(** Witness: a failed delete of a cached server. *)
Lemma deleteServer_cache_effects_witness :
  details (snd (deleteServer_phases (fun _ => DeleteRejected None) 1
                  cached_client)) = details cached_client.
Proof.
  pose proof (deleteServer_cache_effects (fun _ => DeleteRejected None) 1
                cached_client) as H.
  cbn iota zeta beta in H. destruct H as (_ & _ & _ & H & _). exact H.
Defined.

(** [updateServer] makes no optimistic change.  On success the returned
    record is written at its own id (whether or not it was cached), which
    clears that detail query's invalidation, and the lists are invalidated;
    on failure nothing is invalidated and the cache is exactly as before:
    only the loading and error toasts are added. *)
Theorem updateServer_cache_effects
    (backend : Z -> UpdateServerRequest -> Outcome) (k : Z)
    (data : UpdateServerRequest) (c : Client) :
  let '(c1, c2) := updateServer_phases backend k data c in
  details c1 = details c /\ invalidated c1 = invalidated c /\
  lists_invalidated c1 = lists_invalidated c /\
  match backend k data with
  | Resolved d =>
      details c2 = <[id d := d]> (details c) /\
      invalidated c2 = invalidated c ∖ {[id d]} /\ lists_invalidated c2 = true /\
      toasts c2 = (toasts c ++
        [ToastLoading (update_key k) "Updating server...";
         ToastSuccess (update_key (id d)) "Server updated successfully"])%list
  | Rejected e =>
      details c2 = details c /\ invalidated c2 = invalidated c /\
      lists_invalidated c2 = lists_invalidated c /\
      toasts c2 = (toasts c ++
        [ToastLoading (update_key k) "Updating server...";
         ToastError (update_key k) (detail_or e "Failed to update server")])%list
  end.
Proof.
  unfold updateServer_phases. cbn iota zeta beta.
  split; [done|]. split; [done|]. split; [done|].
  destruct (backend k data) as [d|e]; cbn.
  - split; [done|]. split; [done|]. split; [done|].
    by rewrite <- app_assoc.
  - split; [done|]. split; [done|]. split; [done|].
    by rewrite <- app_assoc.
Qed.

End ServerCrudFacts.

(** ** Card power buttons *)
Module ServerCardFacts.
Import ServerActions PowerButtons ServerCard.

(** The card renders no power button while one of its start, stop or
    restart mutations is pending, and otherwise the same buttons as the
    detail page; so a click made while a power mutation is pending does
    nothing. *)
Theorem card_buttons_pending :
  (forall s pending,
     card_buttons s pending =
       if pending StartAction || pending StopAction || pending RestartAction
       then [] else power_buttons ServerDetailView s) /\
  (forall pending backend a srv c,
     pending StartAction || pending StopAction || pending RestartAction
       = true ->
     card_click pending backend a srv c = c).
Proof.
  assert (Hb : forall s pending,
     card_buttons s pending =
       if pending StartAction || pending StopAction || pending RestartAction
       then [] else power_buttons ServerDetailView s).
  { intros s pending. unfold card_buttons, card_isTransitioning.
    destruct (pending StartAction), (pending StopAction),
      (pending RestartAction), s; reflexivity. }
  split; [exact Hb|].
  intros pending backend a srv c Hp. unfold card_click.
  rewrite Hb, Hp. rewrite decide_False; [done|]. set_solver.
Qed.

(** Witness: a start click on a stopped server while a stop is pending. *)
Lemma card_buttons_pending_witness :
  card_click (fun a => bool_decide (a = StopAction)) (fun _ => Rejected None)
    StartAction ServerActionsFacts.sample_server ServerCrudFacts.cached_client
  = ServerCrudFacts.cached_client.
Proof.
  destruct card_buttons_pending as [_ H]. apply H. reflexivity.
Defined.

End ServerCardFacts.

(** ** The memory field *)
Module MemoryInputFacts.
Import MemoryInput.

Lemma memory_onChange_range (u : MemoryUnit) (v : JsNum) (m : Q) :
  (512 <= m <= 131072)%Q -> (512 <= memory_onChange u v m <= 131072)%Q.
Proof.
  intros Hm. destruct v as [q| | |]; simpl; try exact Hm.
  destruct (Qle_bool 512 _ && Qle_bool _ 131072) eqn:E; [|exact Hm].
  apply andb_true_iff in E as [E1 E2].
  apply Qle_bool_iff in E1, E2. split; assumption.
Qed.

(** Whatever is typed into the memory field and whichever unit is
    selected, the form's [memory_mb] stays within [512, 131072]: the
    handler ignores non-numbers and out-of-range values. *)
Theorem memory_mb_in_range (evs : list MemoryEvent) :
  (512 <= memory_mb (memory_run initial_memory evs) <= 131072)%Q.
Proof.
  unfold memory_run.
  assert (H0 : (512 <= memory_mb initial_memory <= 131072)%Q).
  { split; unfold Qle; simpl; lia. }
  revert H0. generalize initial_memory.
  induction evs as [|e evs IH]; intros st Hst; [exact Hst|].
  simpl. apply IH. destruct e as [v|u|]; simpl.
  - by apply memory_onChange_range.
  - exact Hst.
  - split; unfold Qle; simpl; lia.
Qed.

(** In MB a value within range is stored as typed, fractions included;
    in GB an edit either changes nothing or stores the whole number of
    megabytes nearest to [value * 1024] (halves rounded up). *)
Theorem memory_onChange_units (v m : Q) :
  ((512 <= v <= 131072)%Q -> memory_onChange MB (JFinite v) m = v) /\
  (memory_onChange GB (JFinite v) m = m \/
   exists z, memory_onChange GB (JFinite v) m = inject_Z z /\
     (v * inject_Z 1024 - (1 # 2) < inject_Z z <= v * inject_Z 1024 + (1 # 2))%Q).
Proof.
  split.
  - intros [H1 H2]. simpl.
    apply Qle_bool_iff in H1, H2. by rewrite H1, H2.
  - simpl. destruct (Qle_bool 512 _ && Qle_bool _ 131072); [right|by left].
    eexists; split; [reflexivity|]. unfold js_round.
    set (x := (v * inject_Z 1024)%Q).
    pose proof (Qfloor_le (x + (1 # 2))) as Hle.
    pose proof (Qlt_floor (x + (1 # 2))) as Hlt.
    rewrite inject_Z_plus in Hlt.
    split; [|exact Hle].
    set (z := inject_Z (Qfloor (x + (1 # 2)))) in *.
    change (inject_Z 1) with 1%Q in Hlt. lra.
Qed.

(** Witness: a fractional megabyte count typed in MB is stored. *)
Lemma memory_onChange_units_witness :
  memory_onChange MB (JFinite (1201 # 2)) 2048 = (1201 # 2)%Q.
Proof.
  destruct (memory_onChange_units (1201 # 2) 2048) as [H _].
  apply H. split; unfold Qle; simpl; lia.
Defined.

End MemoryInputFacts.

(** ** Connection state of the streaming hook *)
Module WsHookMoreFacts.
Import WsTypes WsHook.

Definition sample_options : UseWebSocketOptions := mkOptions 1 None None.

(** A hook with [enabled: false] never creates a socket, never becomes
    connected and never sends anything, whatever events occur. *)
Theorem disabled_hook_inert (env : option string) (o : UseWebSocketOptions)
    (evs : list HookEvent) :
  opt_enabled o = false ->
  ws (run env o init_hook evs) = None /\
  connected (run env o init_hook evs) = false /\
  sent (run env o init_hook evs) = [].
Proof.
  intros Hd. unfold run.
  assert (Hs : forall st e,
     ws st = None /\ connected st = false /\ sent st = [] ->
     ws (step env o st e) = None /\ connected (step env o st e) = false /\
     sent (step env o st e) = []).
  { intros st e (Hw & Hc & Hsn). destruct e as [| |m| | | |s| | |]; simpl.
    - by rewrite Hd.
    - by rewrite Hw.
    - destruct m as [[]|]; simpl; auto.
    - by rewrite Hw.
    - unfold set_ws; simpl; auto.
    - by rewrite Hw.
    - unfold sendMessage. by rewrite Hw.
    - unfold startStreaming, sendMessage. by rewrite Hw.
    - unfold stopStreaming, sendMessage. by rewrite Hw.
    - simpl; auto. }
  assert (H : forall st,
     ws st = None /\ connected st = false /\ sent st = [] ->
     ws (foldl (step env o) st evs) = None /\
     connected (foldl (step env o) st evs) = false /\
     sent (foldl (step env o) st evs) = []).
  { induction evs as [|e evs IH]; intros st0 H0; [exact H0|].
    apply IH. by apply Hs. }
  apply H. simpl; auto.
Qed.

(** Witness: a disabled hook after a connect attempt. *)
Lemma disabled_hook_inert_witness :
  ws (run None (mkOptions 1 None (Some false)) init_hook [Connect; Opened])
  = None.
Proof.
  destruct (disabled_hook_inert None (mkOptions 1 None (Some false))
              [Connect; Opened] eq_refl) as [H _].
  exact H.
Defined.

(** The payloads of [logs] messages, which feed the legacy [logs] buffer. *)
Definition log_payloads (ms : list (option WebSocketMessageUnion))
    : list string :=
  omap (fun m => match m with
                 | Some (WebSocketLogsMessage _ l) => Some l
                 | _ => None
                 end) ms.

Lemma step_logs (env : option string) (o : UseWebSocketOptions)
    (st : HookState) (e : HookEvent) :
  e <> ClearLogs ->
  logs (step env o st e)
  = (logs st ++ log_payloads (WsHookFacts.messages_of [e]))%list.
Proof.
  intros He. destruct e as [| |m| | | |s| | |]; try done.
  3: destruct m as [[]|]; simpl; by rewrite ?app_nil_r.
  all: unfold step, startStreaming, stopStreaming, sendMessage, send, set_ws;
    repeat case_match; simpl; by rewrite ?app_nil_r.
Qed.

Lemma buffers_without_clear (env : option string) (o : UseWebSocketOptions)
    (st : HookState) (evs : list HookEvent) :
  ClearLogs ∉ evs ->
  logLines (run env o st evs)
  = (logLines st ++ log_line_payloads (WsHookFacts.messages_of evs))%list /\
  logs (run env o st evs)
  = (logs st ++ log_payloads (WsHookFacts.messages_of evs))%list.
Proof.
  revert st. induction evs as [|e evs IH]; intros st Hn.
  - simpl. by rewrite !app_nil_r.
  - change (run env o st (e :: evs)) with (run env o (step env o st e) evs).
    destruct (IH (step env o st e)) as [H1 H2]; [set_solver|].
    rewrite H1, H2, WsHookFacts.step_logLines, step_logs by set_solver.
    rewrite <- !app_assoc.
    unfold log_line_payloads, log_payloads, WsHookFacts.messages_of.
    destruct e; try (split; reflexivity). destruct m as [[]|]; split; reflexivity.
Qed.

(** After [clearLogs], [logLines] holds exactly the [log_line] payloads
    and [logs] exactly the [logs] payloads received since the last
    [clearLogs], in arrival order, whatever happened before it. *)
Theorem buffers_since_last_clear (env : option string)
    (o : UseWebSocketOptions) (st : HookState) (pre post : list HookEvent) :
  ClearLogs ∉ post ->
  logLines (run env o st (pre ++ ClearLogs :: post))
  = log_line_payloads (WsHookFacts.messages_of post) /\
  logs (run env o st (pre ++ ClearLogs :: post))
  = log_payloads (WsHookFacts.messages_of post).
Proof.
  intros Hn. unfold run. rewrite foldl_app. simpl.
  exact (buffers_without_clear env o _ post Hn).
Qed.

(** Witness: a line received before [clearLogs] is gone after it. *)
Lemma buffers_since_last_clear_witness :
  logLines (run None sample_options init_hook
     ([Message (Some (WebSocketLogLine 1 "old" "default"))] ++
      ClearLogs :: [Message (Some (WebSocketLogLine 1 "new" "default"))]))
  = ["new"].
Proof.
  destruct (buffers_since_last_clear None sample_options init_hook
     [Message (Some (WebSocketLogLine 1 "old" "default"))]
     [Message (Some (WebSocketLogLine 1 "new" "default"))]) as [H _].
  - set_solver.
  - rewrite H. reflexivity.
Defined.

End WsHookMoreFacts.

(** ** The API client outside the refresh loop *)
Module ApiClientMoreFacts.
Import ApiClient.

Section Interceptor.
Variable backend : Config -> option Z.
Variable refresh_endpoint : string -> option (string * string).

Abbreviation request := (api_request backend refresh_endpoint).

(** A 2xx answer resolves with one request sent and [localStorage]
    unchanged. *)
Theorem api_request_success (n : nat) (cfg : Config) (st : Storage)
    (code : Z) :
  backend (request_interceptor st cfg) = Some code -> 200 <= code < 300 ->
  request (S n) cfg st = (Ok code, st, [request_interceptor st cfg]).
Proof.
  intros Hb Hc. simpl. rewrite Hb.
  replace ((200 <=? code) && (code <? 300)) with true; [done|].
  symmetry. apply andb_true_iff. split; [apply Z.leb_le|apply Z.ltb_lt]; lia.
Qed.

(** A network error, or an HTTP error other than 401, is rejected with
    that error after one request; nothing is refreshed and
    [localStorage] is unchanged. *)
Theorem api_request_error_passthrough (n : nat) (cfg : Config)
    (st : Storage) (resp : option Z) :
  backend (request_interceptor st cfg) = resp ->
  (resp = None \/
   exists code, resp = Some code /\ ~ (200 <= code < 300) /\ code <> 401) ->
  request (S n) cfg st = (Err (HttpError resp), st, [request_interceptor st cfg]).
Proof.
  intros Hb Hr. simpl. rewrite Hb.
  destruct Hr as [->|(code & -> & Hc & H401)]; [done|].
  replace ((200 <=? code) && (code <? 300)) with false.
  2: { symmetry. apply andb_false_iff.
       destruct (Z.leb_spec 200 code); [right|by left].
       apply Z.ltb_ge. lia. }
  replace (code =? 401) with false by (symmetry; by apply Z.eqb_neq).
  done.
Qed.

(** A 401 when no refresh token is stored (or it is empty) is rejected
    with the 401 itself after one request: the tokens are not removed and
    there is no redirect to [/login]. *)
Theorem api_request_401_without_refresh_token (n : nat) (cfg : Config)
    (st : Storage) :
  backend (request_interceptor st cfg) = Some 401 ->
  truthy (refresh_token st) = None ->
  request (S n) cfg st
  = (Err (HttpError (Some 401)), st, [request_interceptor st cfg]).
Proof.
  intros Hb Ht. simpl. rewrite Hb. simpl.
  destruct (negb (retry_flag (request_interceptor st cfg))); [|done].
  by rewrite Ht.
Qed.

(** After a successful refresh the new token pair is stored (the [user]
    entry kept) whatever the retried request answers; the retried request
    carries the new token, and its answer, success or error (a second 401
    included), is the result. *)
Theorem api_request_after_refresh (n : nat) (cfg : Config) (st : Storage)
    (rt a nrt : string) :
  retry_flag cfg = false ->
  backend (request_interceptor st cfg) = Some 401 ->
  truthy (refresh_token st) = Some rt ->
  refresh_endpoint rt = Some (a, nrt) ->
  let cfg2 := mkConfig (cfg_url cfg) true (Some ("Bearer " +:+ a)) in
  request (S (S n)) cfg st
  = (match backend cfg2 with
     | Some code =>
         if (200 <=? code) && (code <? 300) then Ok code
         else Err (HttpError (Some code))
     | None => Err (HttpError None)
     end,
     mkStorage (Some a) (Some nrt) (user st) (location st),
     [request_interceptor st cfg; cfg2]).
Proof.
  intros Hf Hb Ht Hr cfg2.
  remember (S n) as m eqn:Hm.
  simpl. rewrite Hb. simpl.
  rewrite (ApiClientFacts.request_interceptor_retry st cfg), Hf. simpl. rewrite Ht, Hr.
  assert (Hcfg : request_interceptor
                   (mkStorage (Some a) (Some nrt) (user st) (location st))
                   (mkConfig (cfg_url (request_interceptor st cfg)) true
                      (Some ("Bearer " +:+ a))) = cfg2).
  { assert (Hu : cfg_url (request_interceptor st cfg) = cfg_url cfg).
    { unfold request_interceptor. by case_match. }
    unfold request_interceptor at 1, truthy. simpl. rewrite Hu.
    case_bool_decide as Ha; [subst a|]; reflexivity. }
  subst m. simpl. rewrite Hcfg.
  destruct (backend cfg2) as [code|]; [|done].
  destruct ((200 <=? code) && (code <? 300)); [done|].
  simpl. rewrite andb_false_r. by destruct (code =? 401).
Qed.

End Interceptor.

Definition sample_config : Config := mkConfig "/servers" false None.
Definition sample_storage : Storage :=
  mkStorage (Some "a1") None (Some "admin") None.

(** Witness: a 401 with no refresh token keeps the stored access token. *)
Lemma api_request_401_without_refresh_token_witness :
  snd (fst (api_request (fun _ => Some 401) (fun _ => None) 3%nat
              sample_config sample_storage)) = sample_storage.
Proof.
  rewrite (api_request_401_without_refresh_token (fun _ => Some 401)
             (fun _ => None) 2%nat sample_config sample_storage); reflexivity.
Defined.

(** Witness: a 200 answer. *)
Lemma api_request_success_witness :
  api_request (fun _ => Some 200) (fun _ => None) 1%nat sample_config
    sample_storage
  = (Ok 200, sample_storage, [request_interceptor sample_storage sample_config]).
Proof.
  apply (api_request_success (fun _ => Some 200) (fun _ => None) 0%nat
           sample_config sample_storage 200); [reflexivity | lia].
Defined.

(** Witness: a 500 answer is passed through. *)
Lemma api_request_error_passthrough_witness :
  api_request (fun _ => Some 500) (fun _ => None) 1%nat sample_config
    sample_storage
  = (Err (HttpError (Some 500)), sample_storage,
     [request_interceptor sample_storage sample_config]).
Proof.
  apply (api_request_error_passthrough (fun _ => Some 500) (fun _ => None)
           0%nat sample_config sample_storage (Some 500)); [reflexivity|].
  right. exists 500. split; [reflexivity|]. split; lia.
Defined.

(** A backend that accepts only the refreshed token. *)
Definition accepts_a2 (c : Config) : option Z :=
  if decide (authorization c = Some "Bearer a2") then Some 200 else Some 401.

Definition logged_in_storage : Storage :=
  mkStorage (Some "a1") (Some "r1") (Some "admin") None.

(** Witness: an expired token is refreshed and the retry succeeds. *)
Lemma api_request_after_refresh_witness :
  api_request accepts_a2 (fun _ => Some ("a2", "r2")) 2%nat sample_config
    logged_in_storage
  = (Ok 200, mkStorage (Some "a2") (Some "r2") (Some "admin") None,
     [request_interceptor logged_in_storage sample_config;
      mkConfig "/servers" true (Some "Bearer a2")]).
Proof.
  exact (api_request_after_refresh accepts_a2 (fun _ => Some ("a2", "r2"))
           0%nat sample_config logged_in_storage "r1" "a2" "r2"
           eq_refl eq_refl eq_refl eq_refl).
Defined.

End ApiClientMoreFacts.

(** ** The auth store and [localStorage] *)
Module AuthStoreMoreFacts.
Import AuthStore.

Definition tokens_synced (w : World) : Prop :=
  ls_access_token w = accessToken (state w) /\
  ls_refresh_token w = refreshToken (state w).

(** The store's tokens and the [access_token] / [refresh_token] entries
    of [localStorage] agree after [login] and after [logout] from any
    world, and [updateUser] keeps them in agreement: the store never
    writes one without the other. *)
Theorem tokens_synced_preserved :
  tokens_synced (mkWorld initial_state None None) /\
  (forall data w, tokens_synced (login data w)) /\
  (forall w, tokens_synced (logout w)) /\
  (forall u w, tokens_synced w -> tokens_synced (updateUser u w)).
Proof.
  unfold tokens_synced.
  split; [done|]. split; [done|]. split; [done|].
  intros u w [H1 H2]. simpl. split; assumption.
Qed.

Definition synced_world : World :=
  mkWorld (mkAuthState None (Some "tok") (Some "ref") true)
    (Some "tok") (Some "ref").

(** Witness: [updateUser] on a logged-in world. *)
Lemma tokens_synced_preserved_witness :
  tokens_synced (updateUser AuthStoreFacts.sample_user synced_world).
Proof.
  destruct tokens_synced_preserved as (_ & _ & _ & H).
  apply H. split; reflexivity.
Defined.

(** With the revision that persists only [user] and [isAuthenticated], a
    reloaded store never holds a token, so the authentication invariant
    holds after the reload exactly when the persisted flag is false: a
    session persisted as logged in comes back authenticated with a null
    [accessToken]. *)
Theorem rehydrate_partial_tokens (u : option User) (b : bool) :
  accessToken (rehydrate_partial (u, b)) = None /\
  refreshToken (rehydrate_partial (u, b)) = None /\
  isAuthenticated (rehydrate_partial (u, b)) = b /\
  (auth_invariant (rehydrate_partial (u, b)) <-> b = false).
Proof.
  unfold auth_invariant. simpl.
  split; [done|]. split; [done|]. split; [done|].
  destruct b; split.
  - intros [H _]. by destruct H.
  - discriminate.
  - done.
  - intros _. split; [discriminate|]. intros H. by destruct H.
Qed.

End AuthStoreMoreFacts.
